(** * qNoise: the build descriptor of the Python binding (python/setup.py)

    The script builds one [Extension] descriptor and hands it to
    [setup].  It reads two things from its host: [sys.platform] and the
    result of [pybind11.get_include()].  Both are inputs of the model;
    everything else in the script is a literal. *)

From Stdlib Require Import Strings.String Strings.Ascii Lists.List Bool.Bool Arith.PeanoNat Lia.
Import ListNotations.
Open Scope string_scope.

Set Implicit Arguments.

(** ** What the script reads from its host *)

Module Host.

(** [sys_platform] is the value of [sys.platform];
    [pybind11_get_include] is what [pybind11.get_include()] returns. *)
Record t : Set := Build {
  sys_platform : string;
  pybind11_get_include : string
}.

End Host.

(** ** Python operators used by the script *)

Module Py.

(** [a != b] on [str]: character-for-character comparison. *)
Definition str_ne (a b : string) : bool := negb (String.eqb a b).

(** [x if c else y]. *)
Definition if_else {A : Type} (x : A) (c : bool) (y : A) : A :=
  if c then x else y.

(** [s.startswith(p)] and [s.endswith(p)], used to state properties of
    the path literals. *)
Definition startswith (s p : string) : bool := String.prefix p s.

Definition endswith (s p : string) : bool :=
  if Nat.leb (String.length p) (String.length s)
  then String.eqb (String.substring (String.length s - String.length p)
                                    (String.length p) s) p
  else false.

End Py.

(** ** The descriptor *)

(** The keyword arguments the script gives to [Extension], with their
    names; the first positional argument is the module name. *)
Record Extension : Set := mkExtension {
  name : string;
  sources : list string;
  include_dirs : list string;
  language : string;
  extra_compile_args : list string
}.

(** The keyword arguments of the call to [setup]. *)
Record SetupCall : Set := mkSetupCall {
  kw_ext_modules : list Extension;
  kw_zip_safe : bool
}.

(** The two flag list literals of line 11. *)
Definition unix_flags : list string := ["-std=c++11"; "-O3"; "-Wall"; "-fPIC"].
Definition windows_flags : list string := ["/std:c++14"; "/O2"].

(** Line 11:
    [[...] if sys.platform != "win32" else [...]]. *)
Definition select_compile_args (platform : string) : list string :=
  Py.if_else unix_flags (Py.str_ne platform "win32") windows_flags.

(** Lines 5-13: the module-level list [ext_modules]. *)
Definition ext_modules (h : Host.t) : list Extension :=
  [ {| name := "qnoise._qnoise";
       sources := ["qnoise/qNoisePy.cpp"; "../cpp/qNoise.cpp"];
       include_dirs := [Host.pybind11_get_include h; "../cpp"];
       language := "c++";
       extra_compile_args := select_compile_args (Host.sys_platform h) |} ].

(** Line 15: [setup(ext_modules=ext_modules, zip_safe=False)]. *)
Definition setup_call (h : Host.t) : SetupCall :=
  {| kw_ext_modules := ext_modules h; kw_zip_safe := false |}.

(** The flag lists of all declared extensions, in order. *)
Definition selected_flags (h : Host.t) : list (list string) :=
  map extra_compile_args (ext_modules h).

(** [pkg.m]: a module name inside a package. *)
Definition dotted (pkg m : string) : string := pkg ++ "." ++ m.

(** Every flag the build step receives, over all declared extensions. *)
Definition all_flags (h : Host.t) : list string := concat (selected_flags h).

(** Every include directory and every source path the build step
    receives. *)
Definition all_include_dirs (h : Host.t) : list string :=
  concat (map include_dirs (ext_modules h)).
Definition all_sources (h : Host.t) : list string :=
  concat (map sources (ext_modules h)).

(** ** Sample hosts *)

Definition linux_host : Host.t :=
  Host.Build "linux" "/usr/lib/python3/site-packages/pybind11/include".
Definition win32_host : Host.t :=
  Host.Build "win32" "C:\Python312\Lib\site-packages\pybind11\include".
Definition linux_venv_host : Host.t :=
  Host.Build "linux" "/home/u/.venv/lib/python3.11/site-packages/pybind11/include".


(** ** The comparison against ["win32"] *)

Lemma str_ne_true (a b : string) : Py.str_ne a b = true <-> a <> b.
Proof.
  unfold Py.str_ne. rewrite negb_true_iff. apply String.eqb_neq.
Qed.

Lemma select_not_win32 (p : string) :
  p <> "win32" -> select_compile_args p = unix_flags.
Proof.
  intros Hp. unfold select_compile_args.
  apply str_ne_true in Hp. now rewrite Hp.
Qed.

Lemma select_win32 : select_compile_args "win32" = windows_flags.
Proof. reflexivity. Qed.

Lemma flags_differ : unix_flags <> windows_flags.
Proof. discriminate. Qed.

Lemma select_cases (p : string) :
  (p = "win32" /\ select_compile_args p = windows_flags) \/
  (p <> "win32" /\ select_compile_args p = unix_flags).
Proof.
  destruct (String.eqb_spec p "win32") as [-> | Hne].
  - left. split; [reflexivity | exact select_win32].
  - right. split; [exact Hne | now apply select_not_win32].
Qed.

Lemma selected_flags_unfold (h : Host.t) :
  selected_flags h = [select_compile_args (Host.sys_platform h)].
Proof. reflexivity. Qed.

(** ** The flag list on each platform *)

(** C1. On every host whose platform identifier is not the Windows one
    (["win32"]), the flag list of the declared extension is exactly
    [-std=c++11; -O3; -Wall; -fPIC], in that order. *)
Theorem unix_flags_on_non_windows (h : Host.t) :
  Host.sys_platform h <> "win32" ->
  selected_flags h = [["-std=c++11"; "-O3"; "-Wall"; "-fPIC"]].
Proof.
  intros Hp. rewrite selected_flags_unfold.
  now rewrite (select_not_win32 Hp).
Qed.

Lemma unix_flags_on_non_windows_witness :
  Host.sys_platform linux_host <> "win32" /\
  selected_flags linux_host = [["-std=c++11"; "-O3"; "-Wall"; "-fPIC"]].
Proof.
  split.
  - discriminate.
  - apply (@unix_flags_on_non_windows linux_host). discriminate.
Defined.

(** C2. On every host whose platform identifier is the Windows one
    (["win32"]), the flag list of the declared extension is exactly
    [/std:c++14; /O2], in that order. *)
Theorem windows_flags_on_windows (h : Host.t) :
  Host.sys_platform h = "win32" ->
  selected_flags h = [["/std:c++14"; "/O2"]].
Proof.
  intros Hp. rewrite selected_flags_unfold, Hp.
  now rewrite select_win32.
Qed.

Lemma windows_flags_on_windows_witness :
  Host.sys_platform win32_host = "win32" /\
  selected_flags win32_host = [["/std:c++14"; "/O2"]].
Proof.
  split.
  - reflexivity.
  - apply (@windows_flags_on_windows win32_host). reflexivity.
Defined.

(** C3. The selected flag list is a function of the platform identifier
    alone: two hosts that agree on [sys.platform] get the same flag
    list, whatever else differs between them. *)
Theorem flags_depend_on_platform_only (h1 h2 : Host.t) :
  Host.sys_platform h1 = Host.sys_platform h2 ->
  selected_flags h1 = selected_flags h2.
Proof.
  intros Hp. rewrite !selected_flags_unfold. now rewrite Hp.
Qed.

Lemma flags_depend_on_platform_only_witness :
  Host.pybind11_get_include linux_host <> Host.pybind11_get_include linux_venv_host /\
  Host.sys_platform linux_host = Host.sys_platform linux_venv_host /\
  selected_flags linux_host = selected_flags linux_venv_host.
Proof.
  split; [discriminate |]. split; [reflexivity |].
  apply (@flags_depend_on_platform_only linux_host linux_venv_host). reflexivity.
Defined.

(** C4. The selection is total (it has no error result) and on every
    host yields the Unix list or the Windows list; both occur, and they
    are different lists. *)
Theorem selection_total_two_outcomes :
  (forall h : Host.t,
      selected_flags h = [unix_flags] \/ selected_flags h = [windows_flags]) /\
  (exists h : Host.t, selected_flags h = [unix_flags]) /\
  (exists h : Host.t, selected_flags h = [windows_flags]) /\
  unix_flags <> windows_flags.
Proof.
  repeat split.
  - intros h. rewrite selected_flags_unfold.
    destruct (select_cases (Host.sys_platform h)) as [[_ ->] | [_ ->]];
      [right | left]; reflexivity.
  - exists linux_host. reflexivity.
  - exists win32_host. reflexivity.
  - exact flags_differ.
Qed.

(** C8. The decision is the exact comparison of [sys.platform] with
    ["win32"]: the Windows list is selected exactly when the identifier
    equals ["win32"], the Unix list exactly when it differs; ["cygwin"]
    and ["msys"] get the Unix list. *)
Theorem decision_is_exact_win32_comparison :
  (forall p : string,
      select_compile_args p = Py.if_else unix_flags (negb (String.eqb p "win32")) windows_flags) /\
  (forall h : Host.t,
      (selected_flags h = [windows_flags] <-> Host.sys_platform h = "win32") /\
      (selected_flags h = [unix_flags] <-> Host.sys_platform h <> "win32")) /\
  (forall inc : string, selected_flags (Host.Build "cygwin" inc) = [unix_flags]) /\
  (forall inc : string, selected_flags (Host.Build "msys" inc) = [unix_flags]) /\
  (forall inc : string, selected_flags (Host.Build "Win32" inc) = [unix_flags]) /\
  (forall inc : string, selected_flags (Host.Build "win32" inc) = [windows_flags]).
Proof.
  split; [reflexivity |].
  split; [| repeat split; reflexivity].
  intros h. rewrite selected_flags_unfold.
  destruct (select_cases (Host.sys_platform h)) as [[Heq ->] | [Hne ->]].
  - split; split; intros H; try reflexivity; try exact Heq.
    + injection H as H. now destruct flags_differ.
    + contradiction.
  - split; split; intros H; try reflexivity; try exact Hne.
    + injection H as H. now destruct flags_differ.
    + contradiction.
Qed.

(** ** The fixed part of the descriptor *)

(** C5. On every host the declared source list has exactly two paths:
    the first is local to the binding layer and ends in
    [qNoisePy.cpp]; the second lies in the sibling directory [../cpp/]
    and ends in [qNoise.cpp]. *)
Theorem sources_are_binding_and_core :
  forall h : Host.t,
  exists binding core : string,
    map sources (ext_modules h) = [[binding; core]] /\
    List.length [binding; core] = 2 /\
    Py.endswith binding "qNoisePy.cpp" = true /\
    Py.startswith binding "../" = false /\
    Py.startswith binding "/" = false /\
    Py.endswith binding "qNoise.cpp" = false /\
    Py.endswith core "qNoise.cpp" = true /\
    Py.startswith core "../cpp/" = true /\
    Py.endswith core "qNoisePy.cpp" = false.
Proof.
  intros h. exists "qnoise/qNoisePy.cpp", "../cpp/qNoise.cpp".
  repeat split.
Qed.

(** C6. On every host the include search path has exactly two entries:
    the pybind11 header location reported by the host and the
    native-core header directory [../cpp]. *)
Theorem include_dirs_are_pybind11_and_core :
  forall h : Host.t,
    map include_dirs (ext_modules h) = [[Host.pybind11_get_include h; "../cpp"]] /\
    (forall e : Extension, In e (ext_modules h) ->
       List.length (include_dirs e) = 2 /\
       In "../cpp" (include_dirs e) /\
       In (Host.pybind11_get_include h) (include_dirs e) /\
       (forall d : string, In d (include_dirs e) ->
          d = "../cpp" \/ d = Host.pybind11_get_include h)).
Proof.
  intros h. split; [reflexivity |].
  intros e [<- | []]. cbn [include_dirs].
  repeat split.
  - right. left. reflexivity.
  - left. reflexivity.
  - intros d [<- | [<- | []]]; [right | left]; reflexivity.
Qed.

(** C7. The module name is ["qnoise._qnoise"] on every host: module
    [_qnoise] inside package [qnoise], with a single dot between the
    two. *)
Theorem module_name_fixed_and_namespaced :
  (forall h : Host.t, map name (ext_modules h) = ["qnoise._qnoise"]) /\
  (forall h1 h2 : Host.t, map name (ext_modules h1) = map name (ext_modules h2)) /\
  "qnoise._qnoise" = dotted "qnoise" "_qnoise" /\
  String.index 0 "." "qnoise._qnoise" = Some 6 /\
  String.index 0 "." "qnoise" = None /\
  String.index 0 "." "_qnoise" = None.
Proof.
  repeat split.
Qed.

(** C9. On every host the list given to [setup] as [ext_modules] has
    exactly one entry, and its language is ["c++"]. *)
Theorem one_extension_in_cpp :
  forall h : Host.t,
    List.length (kw_ext_modules (setup_call h)) = 1 /\
    map language (kw_ext_modules (setup_call h)) = ["c++"].
Proof.
  intros h. split; reflexivity.
Qed.

(** C10. On every host the call to [setup] passes [zip_safe=False]. *)
Theorem zip_safe_is_false :
  forall h : Host.t, kw_zip_safe (setup_call h) = false.
Proof.
  intros h. reflexivity.
Qed.

(** ** The path vocabulary *)

Lemma substring_whole (s : string) : String.substring 0 (String.length s) s = s.
Proof.
  induction s as [| c s IH]; simpl; [reflexivity | now rewrite IH].
Qed.

Lemma substring_after_prefix (pre p : string) :
  String.substring (String.length pre) (String.length p) (pre ++ p) = p.
Proof.
  induction pre as [| c pre IH]; simpl.
  - apply substring_whole.
  - exact IH.
Qed.

Lemma substring_split (s : string) :
  forall k : nat, k <= String.length s ->
    s = String.substring 0 k s ++ String.substring k (String.length s - k) s.
Proof.
  induction s as [| c s IH]; intros k Hk.
  - destruct k; reflexivity.
  - destruct k as [| k].
    + simpl. now rewrite substring_whole.
    + simpl in Hk. apply le_S_n in Hk.
      change (String.substring 0 (S k) (String c s))
        with (String c (String.substring 0 k s)).
      change (String.substring (S k) (String.length (String c s) - S k) (String c s))
        with (String.substring k (String.length s - k) s).
      simpl. f_equal. now apply IH.
Qed.

Lemma length_app (a b : string) :
  String.length (a ++ b) = String.length a + String.length b.
Proof.
  induction a as [| c a IH]; simpl; [reflexivity | now rewrite IH].
Qed.

(** [s.endswith(p)] holds exactly when [s] is some string followed by
    [p]. *)
Lemma endswith_correct (s p : string) :
  Py.endswith s p = true <-> exists pre : string, s = pre ++ p.
Proof.
  unfold Py.endswith. split.
  - destruct (Nat.leb_spec (String.length p) (String.length s)) as [Hle | Hlt];
      [| discriminate].
    intros H. apply String.eqb_eq in H.
    exists (String.substring 0 (String.length s - String.length p) s).
    pose proof (@substring_split s (String.length s - String.length p)
                  (Nat.le_sub_l _ _)) as Hs.
    replace (String.length s - (String.length s - String.length p))
      with (String.length p) in Hs by lia.
    rewrite H in Hs. exact Hs.
  - intros [pre ->]. rewrite length_app.
    replace (String.length p <=? String.length pre + String.length p)%nat
      with true by (symmetry; apply Nat.leb_le, Nat.le_add_l).
    rewrite Nat.add_sub, substring_after_prefix. apply String.eqb_refl.
Qed.

(** ** What the whole descriptor depends on *)

(** X1. Two hosts produce the same [setup] call exactly when they agree
    on whether [sys.platform] is ["win32"] and on the pybind11 header
    location; no other difference between hosts reaches the build
    step, and each of these two does. *)
Theorem setup_call_determined_by_win32_and_include (h1 h2 : Host.t) :
  setup_call h1 = setup_call h2 <->
  (String.eqb (Host.sys_platform h1) "win32" = String.eqb (Host.sys_platform h2) "win32" /\
   Host.pybind11_get_include h1 = Host.pybind11_get_include h2).
Proof.
  destruct h1 as [p1 i1], h2 as [p2 i2]. cbn [Host.sys_platform Host.pybind11_get_include].
  split.
  - intros H. injection H as Hi Hf. split; [| exact Hi].
    destruct (select_cases p1) as [[-> E1] | [N1 E1]],
             (select_cases p2) as [[-> E2] | [N2 E2]].
    + reflexivity.
    + rewrite E1, E2 in Hf. symmetry in Hf. now destruct flags_differ.
    + rewrite E1, E2 in Hf. now destruct flags_differ.
    + apply String.eqb_neq in N1, N2. now rewrite N1, N2.
  - intros [Hp ->].
    unfold setup_call, ext_modules, select_compile_args, Py.str_ne.
    cbn [Host.sys_platform Host.pybind11_get_include].
    now rewrite Hp.
Qed.

(** X2. The two flag syntaxes are never mixed: on every host, each flag
    handed to the compiler starts with [/] exactly when [sys.platform]
    is ["win32"], and with [-] exactly when it is not. *)
Theorem flag_syntax_follows_platform (h : Host.t) (f : string) :
  In f (all_flags h) ->
  Py.startswith f "/" = String.eqb (Host.sys_platform h) "win32" /\
  Py.startswith f "-" = negb (String.eqb (Host.sys_platform h) "win32").
Proof.
  unfold all_flags. rewrite selected_flags_unfold.
  destruct (select_cases (Host.sys_platform h)) as [[-> ->] | [Hne ->]].
  - cbn [concat app windows_flags In].
    intros [<- | [<- | []]]; split; reflexivity.
  - apply String.eqb_neq in Hne. rewrite Hne.
    cbn [concat app unix_flags In].
    intros [<- | [<- | [<- | [<- | []]]]]; split; reflexivity.
Qed.

Lemma flag_syntax_follows_platform_witness :
  In "-fPIC" (all_flags linux_host) /\
  Py.startswith "-fPIC" "/" = String.eqb (Host.sys_platform linux_host) "win32" /\
  Py.startswith "-fPIC" "-" = negb (String.eqb (Host.sys_platform linux_host) "win32").
Proof.
  split.
  - simpl. tauto.
  - apply (@flag_syntax_follows_platform linux_host "-fPIC"). simpl. tauto.
Defined.



(** ** How the fields fit together *)

(** X4. On every host the native-core source lies directly in one of
    the include directories: the declared extension has an include
    directory [d] such that [d/qNoise.cpp] is one of its sources. *)
Theorem core_source_in_an_include_dir :
  forall h : Host.t,
  exists (e : Extension) (d : string),
    ext_modules h = [e] /\
    In d (include_dirs e) /\
    In (d ++ "/qNoise.cpp") (sources e).
Proof.
  intros h. eexists. exists "../cpp". split; [reflexivity |].
  cbn [include_dirs sources]. split.
  - right. left. reflexivity.
  - right. left. reflexivity.
Qed.

(** X5. On every host the binding source lies in the directory of the
    package the module name points into: the name is [pkg.m] with no
    dot in [pkg], and [pkg/qNoisePy.cpp] is one of the sources. *)
Theorem binding_source_in_package_dir :
  forall h : Host.t,
  exists (e : Extension) (pkg m : string),
    ext_modules h = [e] /\
    name e = dotted pkg m /\
    String.index 0 "." pkg = None /\
    In (pkg ++ "/qNoisePy.cpp") (sources e).
Proof.
  intros h. eexists. exists "qnoise", "_qnoise".
  split; [reflexivity |]. cbn [name sources].
  repeat split. left. reflexivity.
Qed.

(** X6. No flag and no source path is passed twice, on any host; the
    include path has a repeated entry exactly when the host reports
    [../cpp] as the pybind11 header location. *)
Theorem repeated_entries :
  forall h : Host.t,
    NoDup (all_flags h) /\
    NoDup (all_sources h) /\
    (NoDup (all_include_dirs h) <-> Host.pybind11_get_include h <> "../cpp").
Proof.
  intros h. split; [| split].
  - unfold all_flags. rewrite selected_flags_unfold.
    destruct (select_cases (Host.sys_platform h)) as [[_ ->] | [_ ->]];
      cbn [concat app unix_flags windows_flags];
      repeat (constructor; [cbn [In]; intuition discriminate |]); constructor.
  - cbn. repeat (constructor; [cbn [In]; intuition discriminate |]); constructor.
  - unfold all_include_dirs. cbn [ext_modules map include_dirs concat app].
    split.
    + intros Hnd Heq. inversion Hnd as [| x l Hnotin _]. subst.
      apply Hnotin. left. symmetry. exact Heq.
    + intros Hne. constructor.
      * intros [Heq | []]. apply Hne. symmetry. exact Heq.
      * constructor; [intros [] | constructor].
Qed.
